(** * ClipManager: [resources/py/record_clip.py]

    A shallow embedding of the clip recorder script and the properties its
    specification states about it.

    The script reads the wall clock once, formats it with
    [strftime("%Y-%m-%d_%H-%M-%S")], splices the result into an [ffmpeg]
    command line and hands that line to [os.system].  The embedding has
    three layers:

    - [Datetime]: the part of Python's [datetime] class the script uses
      (the fields, their ranges, and [strftime] for the numeric directives);
    - [Py]: the script itself, as a tree of the two interactions it has with
      its environment ([datetime.now()] and [os.system]), together with an
      interpreter over an explicit world (clock, files, environment
      variables, module globals, event log);
    - [Sh]: how the POSIX shell that [os.system] starts splits the command
      line into words and redirection operators.

    Definitions come first, the lemmas and theorems follow. *)

From Stdlib Require Import ZArith Ascii String DecimalString List Lia.
From stdpp Require Import base option strings gmap.

Open Scope Z_scope.

(* ===================================================================== *)
(** * Part I: definitions *)
(* ===================================================================== *)

(** ** Python's [datetime] *)

Module Datetime.

(** A naive [datetime] object, as [datetime.now()] returns it. *)
Record datetime : Type := mkDatetime {
  year : Z;
  month : Z;
  day : Z;
  hour : Z;
  minute : Z;
  second : Z;
  microsecond : Z
}.

Definition MINYEAR : Z := 1.
Definition MAXYEAR : Z := 9999.

(** [_is_leap(year)]: [year % 4 == 0 and (year % 100 != 0 or year % 400 == 0)]. *)
Definition _is_leap (y : Z) : bool :=
  (y mod 4 =? 0) && (negb (y mod 100 =? 0) || (y mod 400 =? 0)).

(** [_DAYS_IN_MONTH = [-1, 31, 28, 31, 30, 31, 30, 31, 31, 30, 31, 30, 31]] *)
Definition _DAYS_IN_MONTH : list Z :=
  [-1; 31; 28; 31; 30; 31; 30; 31; 31; 30; 31; 30; 31].

Definition _days_in_month (y m : Z) : Z :=
  if (m =? 2) && _is_leap y then 29
  else nth (Z.to_nat m) _DAYS_IN_MONTH (-1).

Definition in_range (lo hi n : Z) : bool := (lo <=? n) && (n <=? hi).

(** The constructor's checks ([_check_date_fields], [_check_time_fields]):
    every [datetime] object satisfies them. *)
Definition valid_datetime (dt : datetime) : bool :=
  in_range MINYEAR MAXYEAR (year dt)
  && in_range 1 12 (month dt)
  && in_range 1 (_days_in_month (year dt) (month dt)) (day dt)
  && in_range 0 23 (hour dt)
  && in_range 0 59 (minute dt)
  && in_range 0 59 (second dt)
  && in_range 0 999999 (microsecond dt).

(** Decimal notation of an integer, as [str(n)] or C's [%d] print it. *)
Definition decimal (n : Z) : string := NilZero.string_of_int (Z.to_int n).

Fixpoint zeros (k : nat) : string :=
  match k with
  | O => EmptyString
  | S k' => String "0" (zeros k')
  end.

(** The [%0<width>d] conversion: at least [width] characters, filled with
    zeros on the left, the sign first. *)
Definition zero_padded (width : nat) (n : Z) : string :=
  if n <? 0 then
    let s := decimal (- n) in
    String "-" (zeros (width - 1 - String.length s) +:+ s)
  else
    let s := decimal n in
    zeros (width - String.length s) +:+ s.

(** One conversion specification of [strftime], which CPython hands to the
    C library: [%Y] is the year as a plain decimal number (glibc does not
    pad it, so the year 999 prints as three characters), and [%m], [%d],
    [%H], [%M], [%S] have two digits each.  From the year 1000 on the plain
    number is the four-digit year, see [year_four_digits].  A directive
    the recorder does not use is left as it is written. *)
Definition directive (c : ascii) (dt : datetime) : string :=
  match c with
  | "Y"%char => decimal (year dt)
  | "m"%char => zero_padded 2 (month dt)
  | "d"%char => zero_padded 2 (day dt)
  | "H"%char => zero_padded 2 (hour dt)
  | "M"%char => zero_padded 2 (minute dt)
  | "S"%char => zero_padded 2 (second dt)
  | "%"%char => "%"
  | _ => String "%" (String c EmptyString)
  end.

(** [dt.strftime(fmt)]: ordinary characters are copied, [%x] is replaced
    by the conversion [x]. *)
Fixpoint strftime (fmt : string) (dt : datetime) : string :=
  match fmt with
  | EmptyString => EmptyString
  | String "%"%char (String c rest) => directive c dt +:+ strftime rest dt
  | String c rest => String c (strftime rest dt)
  end.

End Datetime.

Export Datetime.

(** ** The shell's view of a command line *)

Module Sh.

(** [os.system] passes its argument to [sh -c].  The shell first cuts the
    line into tokens (POSIX, Shell Command Language, 2.3 Token
    Recognition).  The model covers the fragment the recorder's command
    lives in: words separated by blanks, and the redirection operators
    [<] and [>].  A line that needs anything else of the shell grammar
    (quoting, expansions, control operators, globbing, a descriptor number
    before a redirection, a multi-character operator) is outside the
    fragment and has no token list here. *)

Inductive token : Type :=
| TWord (w : string)
| TLess
| TGreat.

Definition is_blank (c : ascii) : bool :=
  (c =? " ")%char || (c =? "009")%char.

(** The characters POSIX 2.2 lists as special to the shell, always or in
    some positions: the operator characters, dollar, backquote, backslash,
    the double quote (code 34) and the single quote, blank, tab (9),
    newline (10), and the pattern, comment, tilde, assignment and percent
    characters. *)
Definition metacharacters : list ascii :=
  ["|"; "&"; ";"; "<"; ">"; "("; ")"; "$"; "`"; "\"; "034"; "'";
   " "; "009"; "010"; "*"; "?"; "["; "#"; "~"; "="; "%"]%char.

Definition is_meta (c : ascii) : bool :=
  existsb (fun m => (c =? m)%char) metacharacters.

(** A character that means nothing to the shell. *)
Definition ordinary (c : ascii) : bool := negb (is_meta c).

Definition is_digit (c : ascii) : bool :=
  let n := nat_of_ascii c in (48 <=? n)%nat && (n <=? 57)%nat.

Fixpoint all_chars (p : ascii -> bool) (s : string) : bool :=
  match s with
  | EmptyString => true
  | String c s' => p c && all_chars p s'
  end.

(** A non-empty word of digits right before [<] or [>] is a descriptor
    number (IO_NUMBER), not a word. *)
Definition is_io_number (w : string) : bool :=
  negb (String.eqb w "") && all_chars is_digit w.

(** The characters that would extend [<] or [>] to a longer operator. *)
Definition extends_operator (s : string) : bool :=
  match s with
  | String c _ => (c =? "<")%char || (c =? ">")%char
                  || (c =? "&")%char || (c =? "|")%char
  | EmptyString => false
  end.

(** End of the word read so far. *)
Definition delimit (w : string) (ts : list token) : list token :=
  if String.eqb w "" then ts else TWord w :: ts.

(** [lex s w]: the tokens of [s], where [w] is the part of the current
    word already read. *)
Fixpoint lex (s : string) (w : string) : option (list token) :=
  match s with
  | EmptyString => Some (delimit w [])
  | String c s' =>
      if is_blank c then delimit w <$> lex s' ""
      else if (c =? "<")%char || (c =? ">")%char then
        if is_io_number w || extends_operator s' then None
        else (fun ts => delimit w ((if (c =? "<")%char then TLess else TGreat) :: ts))
               <$> lex s' ""
      else if is_meta c then None
      else lex s' (w +:+ String c "")
  end.

Definition tokens (line : string) : option (list token) := lex line "".

(** A simple command (POSIX 2.9.1): the words that are not part of a
    redirection are the command name and its arguments; each operator
    takes the word after it as a file name. *)
Inductive redirection : Type :=
| RedirectInput (file : string)     (* <file : open for reading on fd 0 *)
| RedirectOutput (file : string).   (* >file : create or truncate on fd 1 *)

Record simple_command : Type := mkCommand {
  argv : list string;
  redirections : list redirection
}.

Fixpoint parse (ts : list token) : option simple_command :=
  match ts with
  | [] => Some (mkCommand [] [])
  | TWord w :: ts' =>
      (fun c => mkCommand (w :: argv c) (redirections c)) <$> parse ts'
  | TLess :: TWord f :: ts' =>
      (fun c => mkCommand (argv c) (RedirectInput f :: redirections c)) <$> parse ts'
  | TGreat :: TWord f :: ts' =>
      (fun c => mkCommand (argv c) (RedirectOutput f :: redirections c)) <$> parse ts'
  | _ => None
  end.

Definition command_of (line : string) : option simple_command :=
  tokens line ≫= parse.

(** The value of option [opt] in an argument vector: the argument that
    follows the first occurrence of [opt]. *)
Fixpoint option_value (opt : string) (args : list string) : option string :=
  match args with
  | a :: rest =>
      if String.eqb a opt then head rest else option_value opt rest
  | [] => None
  end.

End Sh.

(** ** The script *)

Module Py.

(** What a call can return. *)
Inductive pyval : Type :=
| PyNone
| PyInt (n : Z)
| PyStr (s : string).

(** A piece of Python code as the tree of its interactions with the
    environment: it ends with a value, or asks for the wall-clock time, or
    runs a command line in a sub-shell and gets the wait status back. *)
Inductive py_prog (A : Type) : Type :=
| Ret (a : A)
| DatetimeNow (k : datetime -> py_prog A)
| OsSystem (command : string) (k : Z -> py_prog A).

Arguments Ret {A} a.
Arguments DatetimeNow {A} k.
Arguments OsSystem {A} command k.

Fixpoint bind {A B : Type} (p : py_prog A) (f : A -> py_prog B) : py_prog B :=
  match p with
  | Ret a => f a
  | DatetimeNow k => DatetimeNow (fun dt => bind (k dt) f)
  | OsSystem c k => OsSystem c (fun st => bind (k st) f)
  end.

#[export] Instance py_ret : MRet py_prog := @Ret.
#[export] Instance py_bind : MBind py_prog := fun A B f p => bind p f.

(** [datetime.now()] and [os.system(command)]. *)
Definition datetime_now : py_prog datetime := DatetimeNow Ret.
Definition os_system (command : string) : py_prog Z := OsSystem command Ret.

(** The f-string of the [os.system] call, with [now] spliced in. *)
Definition ffmpeg_command (now : string) : string :=
  "ffmpeg -i rtsp://<camera_ip>:554/h264Preview_01_main -t 30 -vcodec copy /var/www/html/clips/"
  +:+ now +:+ ".mp4".

(** [[
    def record_clip():
        now = datetime.now().strftime("%Y-%m-%d_%H-%M-%S")
        os.system(f"ffmpeg -i rtsp://<camera_ip>:554/h264Preview_01_main -t 30 -vcodec copy /var/www/html/clips/{now}.mp4")
    ]]
    The value of [os.system] is dropped and the body falls off its end, so
    the call returns [None]. *)
Definition record_clip : py_prog pyval :=
  t ← datetime_now;
  let now := strftime "%Y-%m-%d_%H-%M-%S" t in
  _ ← os_system (ffmpeg_command now);
  mret PyNone.

(** *** Module level *)

(** What a module global can be bound to. *)
Inductive pyobj : Type :=
| ObjModule (name : string)
| ObjAttribute (module name : string)
| ObjFunction (body : py_prog pyval).

(** The statements a module body is made of here.  [IfMain s] is
    [if __name__ == "__main__": s]. *)
Inductive stmt : Type :=
| Import (module : string)
| FromImport (module name : string)
| Def (name : string) (body : py_prog pyval)
| CallStmt (name : string)
| IfMain (s : stmt).

(** [record_clip.py], statement by statement. *)
Definition record_clip_py : list stmt :=
  [ Import "os";
    FromImport "datetime" "datetime";
    Def "record_clip" record_clip;
    CallStmt "record_clip" ].

(** *** The world the script runs in *)

Inductive event : Type :=
| EvNow (t : datetime)
| EvSystem (command : string) (status : Z)
| EvCall (name : string).

Record World : Type := mkWorld {
  w_time : datetime;                    (* the wall clock *)
  w_files : gset string;                (* the paths that exist *)
  w_environ : gmap string string;       (* os.environ *)
  w_globals : gmap string pyobj;        (* the module's global names *)
  w_log : list event                    (* what happened so far, oldest first *)
}.

(** The sub-shell is a different process: it sees the whole world, gives
    back a wait status and the files it leaves behind, and cannot reach the
    interpreter's globals or environment. *)
Definition subprocess : Type := string -> World -> Z * gset string.

Definition log (e : event) (w : World) : World :=
  mkWorld (w_time w) (w_files w) (w_environ w) (w_globals w) (w_log w ++ [e]).

Definition set_files (fs : gset string) (w : World) : World :=
  mkWorld (w_time w) fs (w_environ w) (w_globals w) (w_log w).

Definition set_global (x : string) (o : pyobj) (w : World) : World :=
  mkWorld (w_time w) (w_files w) (w_environ w) (<[x := o]> (w_globals w)) (w_log w).

Fixpoint exec {A : Type} (sh : subprocess) (p : py_prog A) (w : World) : A * World :=
  match p with
  | Ret a => (a, w)
  | DatetimeNow k => exec sh (k (w_time w)) (log (EvNow (w_time w)) w)
  | OsSystem c k =>
      let '(status, fs) := sh c w in
      exec sh (k status) (log (EvSystem c status) (set_files fs w))
  end.

(** A statement of the module body, run with [__name__ = name]; [None] is
    a [NameError]. *)
Fixpoint exec_stmt (sh : subprocess) (name : string) (s : stmt) (w : World)
  : option World :=
  match s with
  | Import m => Some (set_global m (ObjModule m) w)
  | FromImport m x => Some (set_global x (ObjAttribute m x) w)
  | Def f body => Some (set_global f (ObjFunction body) w)
  | CallStmt f =>
      match w_globals w !! f with
      | Some (ObjFunction body) => Some (snd (exec sh body (log (EvCall f) w)))
      | _ => None
      end
  | IfMain s' =>
      if String.eqb name "__main__" then exec_stmt sh name s' w else Some w
  end.

Fixpoint exec_module (sh : subprocess) (name : string) (body : list stmt) (w : World)
  : option World :=
  match body with
  | [] => Some w
  | s :: rest => exec_stmt sh name s w ≫= exec_module sh name rest
  end.

(** Observations on the log. *)
Definition system_commands (l : list event) : list string :=
  omap (fun e => match e with EvSystem c _ => Some c | _ => None end) l.

Definition calls (l : list event) : list string :=
  omap (fun e => match e with EvCall f => Some f | _ => None end) l.

Definition clock_reads (l : list event) : list datetime :=
  omap (fun e => match e with EvNow t => Some t | _ => None end) l.

End Py.

Export Py.

(** ** Paths *)

Module Path.

(** The directory part of a path: what stands before its last slash;
    [None] for a name without a slash (a name in the working directory). *)
Fixpoint dirname (p : string) : option string :=
  match p with
  | EmptyString => None
  | String c p' =>
      match dirname p' with
      | Some d => Some (String c d)
      | None => if (c =? "/")%char then Some EmptyString else None
      end
  end.

Fixpoint has_slash (p : string) : bool :=
  match p with
  | EmptyString => false
  | String c p' => (c =? "/")%char || has_slash p'
  end.

(** The last component of a path: what stands after its last slash. *)
Fixpoint basename (p : string) : string :=
  match p with
  | EmptyString => EmptyString
  | String c p' =>
      if has_slash p' then basename p'
      else if (c =? "/")%char then p' else p
  end.

End Path.

(** ** Running a command line *)

Module ShExec.

Import Sh Path.

Definition directory_exists (p : string) (fs : gset string) : bool :=
  match dirname p with
  | None => true
  | Some d => String.eqb d "" || bool_decide (d ∈ fs)
  end.

(** The redirections of a simple command are performed from left to right
    before the command is started (POSIX 2.7 and 2.9.1): [<file] fails when
    [file] does not exist, [>file] creates [file] when its directory
    exists.  The first failure stops the command; the files created so far
    stay. *)
Fixpoint redirect (rs : list redirection) (fs : gset string) : bool * gset string :=
  match rs with
  | [] => (true, fs)
  | RedirectInput f :: rs' =>
      if bool_decide (f ∈ fs) then redirect rs' fs else (false, fs)
  | RedirectOutput f :: rs' =>
      if directory_exists f fs then redirect rs' ({[ f ]} ∪ fs) else (false, fs)
  end.

(** A program started by the shell: it gets its argument vector and the
    world, and gives an exit status and the files it leaves. *)
Definition program : Type := list string -> World -> Z * gset string.

(** [sh -c line] for a line that is one simple command.  [path] finds the
    program a command name stands for.  The wait status is the exit status
    shifted by eight bits: 2 for a line the shell cannot run or a failed
    redirection, 127 for a command that is not found. *)
Definition sh_c (path : string -> option program) : subprocess :=
  fun line w =>
    match command_of line with
    | None => (Z.shiftl 2 8, w_files w)
    | Some c =>
        match redirect (redirections c) (w_files w) with
        | (false, fs) => (Z.shiftl 2 8, fs)
        | (true, fs) =>
            match argv c with
            | [] => (0, fs)
            | name :: _ =>
                match path name with
                | None => (Z.shiftl 127 8, fs)
                | Some prog =>
                    let '(status, fs') := prog (argv c) (set_files fs w) in
                    (Z.shiftl status 8, fs')
                end
            end
        end
    end.

(** The same run with the record of what was started: the argument vector
    of every program the shell launches. *)
Definition run (path : string -> option program)
    (line : string) (w : World) : Z * gset string * list (list string) :=
  match command_of line with
  | None => (Z.shiftl 2 8, w_files w, [])
  | Some c =>
      match redirect (redirections c) (w_files w) with
      | (false, fs) => (Z.shiftl 2 8, fs, [])
      | (true, fs) =>
          match argv c with
          | [] => (0, fs, [])
          | name :: _ =>
              match path name with
              | None => (Z.shiftl 127 8, fs, [])
              | Some prog =>
                  let '(status, fs') := prog (argv c) (set_files fs w) in
                  (Z.shiftl status 8, fs', [argv c])
              end
          end
      end
  end.

Definition started (path : string -> option program)
    (line : string) (w : World) : list (list string) :=
  snd (run path line w).

(** A capture tool that does what its command line says and nothing else:
    it writes the file named by its last argument when that file's
    directory exists. *)
Definition capture_tool : program :=
  fun args w =>
    match last args with
    | Some out =>
        if directory_exists out (w_files w)
        then (0, {[ out ]} ∪ w_files w)
        else (1, w_files w)
    | None => (1, w_files w)
    end.

Definition path_with_ffmpeg (name : string) : option program :=
  if String.eqb name "ffmpeg" then Some capture_tool else None.

Definition path_without_ffmpeg (name : string) : option program := None.

End ShExec.

(** ** Observations on a run of the recorder *)

Module Observe.

(** What a piece of code adds to the log. *)
Definition events_during {A : Type} (sh : subprocess) (p : py_prog A) (w : World)
  : list event :=
  drop (length (w_log w)) (w_log (snd (exec sh p w))).

(** The command lines one call of [record_clip] hands to [os.system]. *)
Definition command_lines (sh : subprocess) (w : World) : list string :=
  system_commands (events_during sh record_clip w).

(** The world once the module's [import]s and [def] have bound their
    names. *)
Definition with_module_globals (w : World) : World :=
  set_global "record_clip" (ObjFunction record_clip)
    (set_global "datetime" (ObjAttribute "datetime" "datetime")
       (set_global "os" (ObjModule "os") w)).

(** The destination of a command line: the last argument of the simple
    command it is; the generated file name is its last component. *)
Definition destination_of (line : string) : option string :=
  Sh.command_of line ≫= (fun c => last (Sh.argv c)).

Definition clip_path (sh : subprocess) (w : World) : option string :=
  last (command_lines sh w) ≫= destination_of.

Definition clip_name (sh : subprocess) (w : World) : option string :=
  Path.basename <$> clip_path sh w.

(** The file name and the destination the recorder writes into its line
    at time [dt]. *)
Definition recorder_filename (dt : datetime) : string :=
  strftime "%Y-%m-%d_%H-%M-%S" dt +:+ ".mp4".

Definition recorder_destination (dt : datetime) : string :=
  "/var/www/html/clips/" +:+ recorder_filename dt.

(** The simple command the recorder's line amounts to, with [out] the
    last word: its tokens, its argument vector and its redirections. *)
Definition recorder_tokens (out : string) : list Sh.token :=
  [Sh.TWord "ffmpeg"; Sh.TWord "-i"; Sh.TWord "rtsp://"; Sh.TLess;
   Sh.TWord "camera_ip"; Sh.TGreat; Sh.TWord ":554/h264Preview_01_main";
   Sh.TWord "-t"; Sh.TWord "30"; Sh.TWord "-vcodec"; Sh.TWord "copy";
   Sh.TWord out].

Definition recorder_argv (out : string) : list string :=
  ["ffmpeg"; "-i"; "rtsp://"; "-t"; "30"; "-vcodec"; "copy"; out].

Definition recorder_redirections : list Sh.redirection :=
  [Sh.RedirectInput "camera_ip"; Sh.RedirectOutput ":554/h264Preview_01_main"].

End Observe.

(** ** The specification's vocabulary *)

Module Spec.

(** The fixed configuration values the specification names. *)
Definition output_dir : string := "/var/www/html/clips".
Definition duration : Z := 30.
Definition camera_uri : string := "rtsp://<camera_ip>:554/h264Preview_01_main".

Definition digit_char (d : Z) : ascii := ascii_of_nat (48 + Z.to_nat d).

(** [MM], [DD], [HH], [SS]: two decimal digits. *)
Definition two_digits (n : Z) : string :=
  String (digit_char (n / 10)) (String (digit_char (n mod 10)) EmptyString).

(** [YYYY]: four decimal digits. *)
Definition four_digits (n : Z) : string :=
  String (digit_char (n / 1000))
    (String (digit_char (n / 100 mod 10))
       (String (digit_char (n / 10 mod 10))
          (String (digit_char (n mod 10)) EmptyString))).

(** The capture timestamp, [YYYY-MM-DD_HH-MM-SS]. *)
Definition timestamp (dt : datetime) : string :=
  four_digits (year dt) +:+ "-" +:+ two_digits (month dt) +:+ "-"
  +:+ two_digits (day dt) +:+ "_" +:+ two_digits (hour dt) +:+ "-"
  +:+ two_digits (minute dt) +:+ "-" +:+ two_digits (second dt).

(** The part of the timestamp after the year, [-MM-DD_HH-MM-SS]. *)
Definition below_year (dt : datetime) : string :=
  "-" +:+ two_digits (month dt) +:+ "-"
  +:+ two_digits (day dt) +:+ "_" +:+ two_digits (hour dt) +:+ "-"
  +:+ two_digits (minute dt) +:+ "-" +:+ two_digits (second dt).

(** [{timestamp}.mp4] and [{outputDir}/{timestamp}.mp4]. *)
Definition filename (dt : datetime) : string := timestamp dt +:+ ".mp4".
Definition destination (dt : datetime) : string :=
  output_dir +:+ "/" +:+ filename dt.

(** A format picture such as [YYYY-MM-DD_HH-MM-SS.mp4]: a capital letter
    stands for one decimal digit, any other character for itself. *)
Definition is_upper (c : ascii) : bool :=
  let n := nat_of_ascii c in (65 <=? n)%nat && (n <=? 90)%nat.

Fixpoint matches (picture s : string) : bool :=
  match picture, s with
  | EmptyString, EmptyString => true
  | String p picture', String c s' =>
      (if is_upper p then Sh.is_digit c else (c =? p)%char) && matches picture' s'
  | _, _ => false
  end.

(** The characters a timestamp is made of. *)
Definition is_timestamp_char (c : ascii) : bool :=
  Sh.is_digit c || (c =? "-")%char || (c =? "_")%char.

(** What a timestamp is about: the wall-clock time to the second. *)
Definition to_the_second (dt : datetime) : Z * Z * Z * Z * Z * Z :=
  (year dt, month dt, day dt, hour dt, minute dt, second dt).

End Spec.

(** ** Orders on times and on names *)

Module Order.

(** Lexicographic combination: the first comparison decides unless it
    says equal. *)
Definition lexicographic (c1 c2 : comparison) : comparison :=
  match c1 with
  | Eq => c2
  | _ => c1
  end.

(** Which of two times comes first, down to the second. *)
Definition time_compare (a b : datetime) : comparison :=
  lexicographic (year a ?= year b)
    (lexicographic (month a ?= month b)
       (lexicographic (day a ?= day b)
          (lexicographic (hour a ?= hour b)
             (lexicographic (minute a ?= minute b) (second a ?= second b))))).

(** The order in which a directory listing or [sorted()] puts two names:
    character by character, by character code. *)
Definition name_compare (a b : string) : comparison := String.compare a b.

Definition comparison_eqb (c1 c2 : comparison) : bool :=
  match c1, c2 with
  | Eq, Eq | Lt, Lt | Gt, Gt => true
  | _, _ => false
  end.

End Order.

(** ** Sample worlds *)

Module Samples.

(** 9 March 2024, 07:05:00 and a fraction; the same second a little later;
    the next second. *)
Definition morning : datetime := mkDatetime 2024 3 9 7 5 0 123456.
Definition same_second : datetime := mkDatetime 2024 3 9 7 5 0 900000.
Definition next_second : datetime := mkDatetime 2024 3 9 7 5 1 0.

(** A stand-in for the sub-shell that starts nothing, touches no file and
    reports [status]. *)
Definition exits_with (status : Z) : subprocess :=
  fun _ w => (status, w_files w).

(** A fresh interpreter at time [t] with the files [fs]. *)
Definition world_at (t : datetime) (fs : gset string) : World :=
  mkWorld t fs ∅ ∅ [].

(** A working directory that happens to hold a file [camera_ip] and a
    directory [:554], next to the clip directory. *)
Definition cluttered : gset string :=
  {[ "camera_ip"; ":554"; "/var/www/html/clips" ]}.

End Samples.

(* ===================================================================== *)
(** * Part II: lemmas and theorems *)
(* ===================================================================== *)

(** ** Decimal conversions *)

Section DecimalFacts.

(** A check on every number below [N] settles the property on the whole
    interval. *)
Lemma check_below (P : Z -> bool) (N : Z) :
  forallb (fun k => P (Z.of_nat k)) (seq 0 (Z.to_nat N)) = true ->
  forall n, 0 <= n < N -> P n = true.
Proof.
  intros Hall n Hn.
  rewrite forallb_forall in Hall.
  specialize (Hall (Z.to_nat n)).
  rewrite Z2Nat.id in Hall by lia.
  apply Hall, in_seq. lia.
Qed.

Lemma zero_padded_two_digits n :
  0 <= n <= 99 -> zero_padded 2 n = Spec.two_digits n.
Proof.
  intros Hn.
  apply String.eqb_eq.
  apply (check_below (fun k => String.eqb (zero_padded 2 k) (Spec.two_digits k)) 100);
    [ vm_compute; reflexivity | lia ].
Qed.

Lemma zero_padded_four_digits n :
  0 <= n <= 9999 -> zero_padded 4 n = Spec.four_digits n.
Proof.
  intros Hn.
  apply String.eqb_eq.
  apply (check_below (fun k => String.eqb (zero_padded 4 k) (Spec.four_digits k)) 10000);
    [ vm_compute; reflexivity | lia ].
Qed.

(** From 1000 on the year needs no padding: a C library that prints [%Y]
    as a plain number gives the same four characters. *)
Lemma zero_padded_year_plain n :
  1000 <= n <= 9999 -> zero_padded 4 n = decimal n.
Proof.
  intros Hn.
  apply String.eqb_eq.
  pose (P := fun k => (k <? 1000) || String.eqb (zero_padded 4 k) (decimal k)).
  assert (H : P n = true).
  { apply (check_below P 10000); [ vm_compute; reflexivity | lia ]. }
  unfold P in H. apply orb_true_iff in H as [H | H]; [ lia | exact H ].
Qed.

(** The plain year is the four-digit year from 1000 on. *)
Lemma year_four_digits n :
  1000 <= n <= 9999 -> decimal n = Spec.four_digits n.
Proof.
  intros Hn. rewrite <- zero_padded_year_plain by exact Hn.
  apply zero_padded_four_digits. lia.
Qed.

(** Padding only adds zeros in front of the plain number. *)
Lemma zero_padded_decimal width n :
  0 <= n ->
  zero_padded width n = zeros (width - String.length (decimal n)) +:+ decimal n.
Proof.
  intros Hn. unfold zero_padded.
  destruct (n <? 0) eqn:Hneg; [ apply Z.ltb_lt in Hneg; lia | reflexivity ].
Qed.

Lemma decimal_digits n :
  0 <= n <= 9999 -> Sh.all_chars Sh.is_digit (decimal n) = true.
Proof.
  intros Hn.
  apply (check_below (fun k => Sh.all_chars Sh.is_digit (decimal k)) 10000);
    [ vm_compute; reflexivity | lia ].
Qed.

End DecimalFacts.

(** ** The timestamp *)

Section TimestampFacts.

Lemma in_range_spec lo hi n : in_range lo hi n = true <-> lo <= n <= hi.
Proof. unfold in_range. rewrite andb_true_iff, !Z.leb_le. tauto. Qed.

Lemma _days_in_month_le y m : 1 <= m <= 12 -> 28 <= _days_in_month y m <= 31.
Proof.
  intros Hm. unfold _days_in_month.
  destruct ((m =? 2) && _is_leap y); [ lia | ].
  assert (Hcases : m = 1 \/ m = 2 \/ m = 3 \/ m = 4 \/ m = 5 \/ m = 6 \/ m = 7
                   \/ m = 8 \/ m = 9 \/ m = 10 \/ m = 11 \/ m = 12) by lia.
  repeat (destruct Hcases as [-> | Hcases]; [ simpl; lia | ]).
  subst m. simpl. lia.
Qed.

(** The ranges a [datetime] keeps its fields in. *)
Lemma valid_datetime_bounds dt :
  valid_datetime dt = true ->
  1 <= year dt <= 9999 /\ 1 <= month dt <= 12 /\ 1 <= day dt <= 31
  /\ 0 <= hour dt <= 23 /\ 0 <= minute dt <= 59 /\ 0 <= second dt <= 59.
Proof.
  unfold valid_datetime, MINYEAR, MAXYEAR.
  rewrite !andb_true_iff, !in_range_spec.
  intros [[[[[[Hy Hm] Hd] Hh] Hmi] Hs] _].
  pose proof (_days_in_month_le (year dt) (month dt) Hm).
  lia.
Qed.

(** [strftime] with the recorder's format gives the timestamp of the
    specification, digit for digit. *)
Lemma strftime_plain dt :
  valid_datetime dt = true ->
  strftime "%Y-%m-%d_%H-%M-%S" dt = decimal (year dt) +:+ Spec.below_year dt.
Proof.
  intros Hv. apply valid_datetime_bounds in Hv.
  destruct Hv as (Hy & Hm & Hd & Hh & Hmi & Hs).
  cbn [strftime directive]. unfold Spec.below_year.
  rewrite !zero_padded_two_digits by lia.
  reflexivity.
Qed.

Lemma strftime_timestamp dt :
  valid_datetime dt = true ->
  1000 <= year dt ->
  strftime "%Y-%m-%d_%H-%M-%S" dt = Spec.timestamp dt.
Proof.
  intros Hv Hy. rewrite (strftime_plain dt Hv).
  apply valid_datetime_bounds in Hv.
  rewrite year_four_digits by lia. reflexivity.
Qed.

Lemma digit_char_is_digit d : 0 <= d <= 9 -> Sh.is_digit (Spec.digit_char d) = true.
Proof.
  intros Hd.
  apply (check_below (fun k => Sh.is_digit (Spec.digit_char k)) 10);
    [ reflexivity | lia ].
Qed.

Lemma digit_char_inj d e :
  0 <= d <= 9 -> 0 <= e <= 9 -> Spec.digit_char d = Spec.digit_char e -> d = e.
Proof.
  intros Hd He Heq. unfold Spec.digit_char in Heq.
  apply (f_equal nat_of_ascii) in Heq.
  rewrite !nat_ascii_embedding in Heq by lia.
  lia.
Qed.

Lemma two_digits_inj a b :
  0 <= a <= 99 -> 0 <= b <= 99 -> Spec.two_digits a = Spec.two_digits b -> a = b.
Proof.
  intros Ha Hb Heq. unfold Spec.two_digits in Heq.
  injection Heq as H1 H0.
  apply digit_char_inj in H1; [ | Z.div_mod_to_equations; lia .. ].
  apply digit_char_inj in H0; [ | Z.div_mod_to_equations; lia .. ].
  Z.div_mod_to_equations. lia.
Qed.


Lemma four_digits_inj a b :
  0 <= a <= 9999 -> 0 <= b <= 9999 -> Spec.four_digits a = Spec.four_digits b -> a = b.
Proof.
  intros Ha Hb Heq. unfold Spec.four_digits in Heq.
  injection Heq as H3 H2 H1 H0.
  apply digit_char_inj in H3; [ | Z.div_mod_to_equations; lia .. ].
  apply digit_char_inj in H2; [ | Z.div_mod_to_equations; lia .. ].
  apply digit_char_inj in H1; [ | Z.div_mod_to_equations; lia .. ].
  apply digit_char_inj in H0; [ | Z.div_mod_to_equations; lia .. ].
  Z.div_mod_to_equations. lia.
Qed.

Lemma decimal_inj a b :
  0 <= a <= 9999 -> 0 <= b <= 9999 -> decimal a = decimal b -> a = b.
Proof.
  intros Ha Hb Heq. apply four_digits_inj; [ exact Ha | exact Hb | ].
  rewrite <- !zero_padded_four_digits by assumption.
  rewrite !zero_padded_decimal by lia. rewrite Heq. reflexivity.
Qed.

Ltac digit_bounds := Z.div_mod_to_equations; lia.

(** The timestamp keeps the time to the second: two times with the same
    timestamp agree on every field down to the second. *)
Lemma timestamp_inj dt1 dt2 :
  valid_datetime dt1 = true -> valid_datetime dt2 = true ->
  Spec.timestamp dt1 = Spec.timestamp dt2 ->
  Spec.to_the_second dt1 = Spec.to_the_second dt2.
Proof.
  intros Hv1 Hv2 Heq.
  apply valid_datetime_bounds in Hv1, Hv2.
  destruct Hv1 as (Hy1 & Hm1 & Hd1 & Hh1 & Hmi1 & Hs1).
  destruct Hv2 as (Hy2 & Hm2 & Hd2 & Hh2 & Hmi2 & Hs2).
  unfold Spec.timestamp, Spec.four_digits, Spec.two_digits in Heq.
  cbv [String.append] in Heq.
  injection Heq as Y3 Y2 Y1 Y0 M1 M0 D1 D0 H1 H0 Mi1 Mi0 S1 S0.
  assert (Hy : year dt1 = year dt2).
  { apply four_digits_inj; [ lia | lia | ].
    unfold Spec.four_digits. congruence. }
  assert (Hm : month dt1 = month dt2).
  { apply two_digits_inj; [ lia | lia | ]. unfold Spec.two_digits. congruence. }
  assert (Hd : day dt1 = day dt2).
  { apply two_digits_inj; [ lia | lia | ]. unfold Spec.two_digits. congruence. }
  assert (Hh : hour dt1 = hour dt2).
  { apply two_digits_inj; [ lia | lia | ]. unfold Spec.two_digits. congruence. }
  assert (Hmi : minute dt1 = minute dt2).
  { apply two_digits_inj; [ lia | lia | ]. unfold Spec.two_digits. congruence. }
  assert (Hs : second dt1 = second dt2).
  { apply two_digits_inj; [ lia | lia | ]. unfold Spec.two_digits. congruence. }
  unfold Spec.to_the_second. congruence.
Qed.

(** Every character of a timestamp is a digit, a hyphen or an underscore. *)
Lemma timestamp_chars dt :
  valid_datetime dt = true ->
  Sh.all_chars Spec.is_timestamp_char (Spec.timestamp dt) = true.
Proof.
  intros Hv. apply valid_datetime_bounds in Hv.
  destruct Hv as (Hy & Hm & Hd & Hh & Hmi & Hs).
  unfold Spec.timestamp, Spec.four_digits, Spec.two_digits.
  cbv [String.append Sh.all_chars]. unfold Spec.is_timestamp_char.
  rewrite !digit_char_is_digit by digit_bounds.
  reflexivity.
Qed.

(** The file name has the shape [YYYY-MM-DD_HH-MM-SS.mp4]. *)
Lemma filename_matches dt :
  valid_datetime dt = true ->
  Spec.matches "YYYY-MM-DD_HH-MM-SS.mp4" (Spec.filename dt) = true.
Proof.
  intros Hv. apply valid_datetime_bounds in Hv.
  destruct Hv as (Hy & Hm & Hd & Hh & Hmi & Hs).
  unfold Spec.filename, Spec.timestamp, Spec.four_digits, Spec.two_digits.
  cbv [String.append Spec.matches].
  change (Spec.is_upper "Y") with true. change (Spec.is_upper "M") with true.
  change (Spec.is_upper "D") with true. change (Spec.is_upper "H") with true.
  change (Spec.is_upper "S") with true. cbv iota.
  rewrite !digit_char_is_digit by digit_bounds.
  reflexivity.
Qed.

End TimestampFacts.

(** ** The command line as the shell reads it *)

Section ShellFacts.

Import Sh Observe.

Lemma ordinary_spec c :
  ordinary c = true ->
  is_blank c = false /\ (c =? "<")%char = false /\ (c =? ">")%char = false
  /\ is_meta c = false.
Proof.
  destruct c as [[] [] [] [] [] [] [] []]; vm_compute; intros H;
    (discriminate H || (repeat split; reflexivity)).
Qed.

(** No character of a timestamp means anything to the shell. *)
Lemma timestamp_char_ordinary c :
  Spec.is_timestamp_char c = true -> ordinary c = true.
Proof.
  destruct c as [[] [] [] [] [] [] [] []]; vm_compute; intros H;
    (discriminate H || reflexivity).
Qed.

Lemma all_chars_impl (p q : ascii -> bool) s :
  (forall c, p c = true -> q c = true) ->
  all_chars p s = true -> all_chars q s = true.
Proof.
  intros Hpq. induction s as [ | c s IH ]; simpl; [ reflexivity | ].
  rewrite !andb_true_iff. intros [Hc Hs]. auto.
Qed.

Lemma all_chars_app p s1 s2 :
  all_chars p (s1 +:+ s2) = all_chars p s1 && all_chars p s2.
Proof.
  induction s1 as [ | c s1 IH ]; cbn [String.append all_chars]; [ reflexivity | ].
  cbv [String.append]. fold String.append. cbn [all_chars].
  rewrite IH. apply andb_assoc.
Qed.

Lemma append_assoc (a b c : string) : (a +:+ b) +:+ c = a +:+ (b +:+ c).
Proof.
  induction a as [ | x a IH ]; [ reflexivity | ].
  change (String x ((a +:+ b) +:+ c) = String x (a +:+ (b +:+ c))).
  now rewrite IH.
Qed.

Lemma append_empty_r (a : string) : a +:+ "" = a.
Proof.
  induction a as [ | x a IH ]; [ reflexivity | ].
  change (String x (a +:+ "") = String x a). now rewrite IH.
Qed.

Lemma append_cancel_l (a b c : string) : a +:+ b = a +:+ c -> b = c.
Proof.
  induction a as [ | x a IH ]; [ trivial | ].
  change (String x (a +:+ b) = String x (a +:+ c) -> b = c).
  intros H. apply IH. congruence.
Qed.

(** Ordinary characters only ever extend the word being read. *)
Lemma lex_ordinary s1 : forall s2 w,
  all_chars ordinary s1 = true ->
  lex (s1 +:+ s2) w = lex s2 (w +:+ s1).
Proof.
  induction s1 as [ | c s1 IH ]; intros s2 w Hs1.
  - rewrite append_empty_r. reflexivity.
  - cbn [all_chars] in Hs1. apply andb_true_iff in Hs1 as [Hc Hs1].
    apply ordinary_spec in Hc as (Hb & Hl & Hg & Hm).
    change (String c s1 +:+ s2) with (String c (s1 +:+ s2)).
    cbn [lex]. rewrite Hb, Hl, Hg, Hm. cbn [orb].
    rewrite IH by exact Hs1.
    f_equal. rewrite append_assoc. reflexivity.
Qed.

(** The recorder's line up to the destination word: eleven tokens, among
    them the two operators the placeholder [<camera_ip>] brings in. *)
Lemma lex_recorder_prefix word :
  lex ("ffmpeg -i rtsp://<camera_ip>:554/h264Preview_01_main -t 30 -vcodec copy " +:+ word) ""
  = (fun ts => [TWord "ffmpeg"; TWord "-i"; TWord "rtsp://"; TLess; TWord "camera_ip";
                TGreat; TWord ":554/h264Preview_01_main"; TWord "-t"; TWord "30";
                TWord "-vcodec"; TWord "copy"] ++ ts) <$> lex word "".
Proof.
  vm_compute.
  match goal with
  | |- context [?f word EmptyString] => destruct (f word EmptyString)
  end; reflexivity.
Qed.

(** Whatever ordinary characters are spliced in, the line has the same
    twelve tokens, and the spliced text stays inside the last word. *)
Lemma tokens_ffmpeg_command now :
  all_chars ordinary now = true ->
  tokens (ffmpeg_command now)
  = Some (recorder_tokens ("/var/www/html/clips/" +:+ now +:+ ".mp4")).
Proof.
  intros Hnow. unfold tokens, ffmpeg_command.
  change (lex ("ffmpeg -i rtsp://<camera_ip>:554/h264Preview_01_main -t 30 -vcodec copy "
               +:+ ("/var/www/html/clips/" +:+ now +:+ ".mp4")) ""
          = Some (recorder_tokens ("/var/www/html/clips/" +:+ now +:+ ".mp4"))).
  rewrite lex_recorder_prefix.
  assert (Hword : all_chars ordinary ("/var/www/html/clips/" +:+ now +:+ ".mp4") = true).
  { rewrite !all_chars_app, Hnow. reflexivity. }
  pose proof (lex_ordinary _ "" "" Hword) as Hlex.
  rewrite append_empty_r in Hlex.
  rewrite Hlex. reflexivity.
Qed.

Lemma command_of_ffmpeg_command now :
  all_chars ordinary now = true ->
  command_of (ffmpeg_command now)
  = Some (mkCommand (recorder_argv ("/var/www/html/clips/" +:+ now +:+ ".mp4"))
                    recorder_redirections).
Proof.
  intros Hnow. unfold command_of.
  rewrite (tokens_ffmpeg_command now Hnow). reflexivity.
Qed.

End ShellFacts.

(** ** The text [strftime] gives, for every year *)

Section StrftimeFacts.

Import Sh.

Lemma length_append (a b : string) :
  String.length (a +:+ b) = (String.length a + String.length b)%nat.
Proof.
  induction a as [ | x a IH ]; [ reflexivity | ].
  change (S (String.length (a +:+ b)) = S (String.length a + String.length b)).
  now rewrite IH.
Qed.

(** Two texts with tails of one length: equal wholes have equal parts. *)
Lemma append_inj_tail (a1 a2 b1 b2 : string) :
  String.length b1 = String.length b2 ->
  a1 +:+ b1 = a2 +:+ b2 -> a1 = a2 /\ b1 = b2.
Proof.
  intros Hb. revert a2. induction a1 as [ | x a1 IH ]; intros [ | y a2 ] Heq.
  - split; [ reflexivity | exact Heq ].
  - apply (f_equal String.length) in Heq.
    rewrite !length_append in Heq. cbn [String.length] in Heq. lia.
  - apply (f_equal String.length) in Heq.
    rewrite !length_append in Heq. cbn [String.length] in Heq. lia.
  - change (String x (a1 +:+ b1) = String y (a2 +:+ b2)) in Heq.
    assert (Hxy : x = y) by congruence.
    assert (Hrest : a1 +:+ b1 = a2 +:+ b2) by congruence.
    destruct (IH a2 Hrest) as [Ha Hb']. subst. split; reflexivity.
Qed.

Lemma below_year_chars dt :
  valid_datetime dt = true ->
  all_chars Spec.is_timestamp_char (Spec.below_year dt) = true.
Proof.
  intros Hv. pose proof (timestamp_chars dt Hv) as Hts.
  change (Spec.timestamp dt)
    with (Spec.four_digits (year dt) +:+ Spec.below_year dt) in Hts.
  rewrite all_chars_app in Hts. apply andb_true_iff in Hts as [_ Hts]. exact Hts.
Qed.

(** Every character [strftime] gives is a digit, a hyphen or an
    underscore, whatever the number of digits of the year. *)
Lemma strftime_chars dt :
  valid_datetime dt = true ->
  all_chars Spec.is_timestamp_char (strftime "%Y-%m-%d_%H-%M-%S" dt) = true.
Proof.
  intros Hv. rewrite (strftime_plain dt Hv), all_chars_app.
  rewrite (below_year_chars dt Hv), andb_true_r.
  apply (all_chars_impl is_digit).
  - intros c Hc. unfold Spec.is_timestamp_char. rewrite Hc. reflexivity.
  - apply decimal_digits. apply valid_datetime_bounds in Hv. lia.
Qed.

(** [strftime] keeps the time to the second, whatever the number of digits
    of the year. *)
Lemma strftime_inj dt1 dt2 :
  valid_datetime dt1 = true -> valid_datetime dt2 = true ->
  strftime "%Y-%m-%d_%H-%M-%S" dt1 = strftime "%Y-%m-%d_%H-%M-%S" dt2 ->
  Spec.to_the_second dt1 = Spec.to_the_second dt2.
Proof.
  intros Hv1 Hv2 Heq.
  rewrite (strftime_plain dt1 Hv1), (strftime_plain dt2 Hv2) in Heq.
  apply append_inj_tail in Heq; [ | reflexivity ].
  destruct Heq as [Hyear Hrest].
  apply timestamp_inj; [ exact Hv1 | exact Hv2 | ].
  change (Spec.four_digits (year dt1) +:+ Spec.below_year dt1
          = Spec.four_digits (year dt2) +:+ Spec.below_year dt2).
  rewrite Hrest. f_equal. f_equal.
  apply valid_datetime_bounds in Hv1, Hv2.
  apply decimal_inj; [ lia | lia | exact Hyear ].
Qed.

End StrftimeFacts.

(** ** Paths *)

Section PathFacts.

Import Path.

Lemma dirname_no_slash f : has_slash f = false -> dirname f = None.
Proof.
  induction f as [ | c f IH ]; [ reflexivity | ].
  cbn [has_slash dirname]. intros H.
  apply orb_false_iff in H as [Hc Hf].
  rewrite (IH Hf), Hc. reflexivity.
Qed.

Lemma dirname_app d f :
  has_slash f = false -> dirname (d +:+ String "/" f) = Some d.
Proof.
  intros Hf. induction d as [ | c d IH ].
  - change (dirname (String "/" f) = Some ""). cbn [dirname].
    rewrite (dirname_no_slash f Hf). reflexivity.
  - change (dirname (String c (d +:+ String "/" f)) = Some (String c d)).
    cbn [dirname]. rewrite IH. reflexivity.
Qed.

Lemma has_slash_app d f : has_slash (d +:+ String "/" f) = true.
Proof.
  induction d as [ | c d IH ]; [ reflexivity | ].
  change (has_slash (String c (d +:+ String "/" f)) = true).
  cbn [has_slash]. rewrite IH. apply orb_true_r.
Qed.

Lemma basename_app d f :
  has_slash f = false -> basename (d +:+ String "/" f) = f.
Proof.
  intros Hf. induction d as [ | c d IH ].
  - change (basename (String "/" f) = f). cbn [basename]. rewrite Hf. reflexivity.
  - change (basename (String c (d +:+ String "/" f)) = f).
    cbn [basename]. rewrite has_slash_app. exact IH.
Qed.

End PathFacts.

(** ** One call of [record_clip] *)

Section ProgramFacts.

Import Observe.

Variable sh : subprocess.

(** The call, step by step: the clock is read, the line is built and run,
    the status is dropped. *)
Lemma exec_record_clip w :
  exec sh record_clip w =
  let t := w_time w in
  let w1 := log (EvNow t) w in
  let line := ffmpeg_command (strftime "%Y-%m-%d_%H-%M-%S" t) in
  (PyNone, log (EvSystem line (fst (sh line w1))) (set_files (snd (sh line w1)) w1)).
Proof.
  cbv [record_clip mbind py_bind bind datetime_now os_system mret py_ret exec].
  cbv zeta.
  destruct (sh _ _) as [status fs]. reflexivity.
Qed.

Lemma events_during_record_clip w :
  events_during sh record_clip w =
  let t := w_time w in
  let line := ffmpeg_command (strftime "%Y-%m-%d_%H-%M-%S" t) in
  [EvNow t; EvSystem line (fst (sh line (log (EvNow t) w)))].
Proof.
  unfold events_during. rewrite exec_record_clip. cbn [snd log set_files w_log].
  rewrite <- app_assoc. rewrite drop_app_length. reflexivity.
Qed.

Lemma command_lines_record_clip w :
  command_lines sh w = [ffmpeg_command (strftime "%Y-%m-%d_%H-%M-%S" (w_time w))].
Proof. unfold command_lines. rewrite events_during_record_clip. reflexivity. Qed.

End ProgramFacts.

(** ** The destination of the recording *)

Section DestinationFacts.

Import Sh Path Observe.

Lemma timestamp_char_not_slash c :
  Spec.is_timestamp_char c = true -> (c =? "/")%char = false.
Proof.
  destruct c as [[] [] [] [] [] [] [] []]; vm_compute; intros H;
    (discriminate H || reflexivity).
Qed.

Lemma no_slash_in_name s :
  all_chars Spec.is_timestamp_char s = true -> has_slash (s +:+ ".mp4") = false.
Proof.
  induction s as [ | c s IH ]; intros Hs; [ reflexivity | ].
  cbn [all_chars] in Hs. apply andb_true_iff in Hs as [Hc Hs].
  change (has_slash (String c (s +:+ ".mp4")) = false).
  cbn [has_slash]. rewrite (timestamp_char_not_slash c Hc), (IH Hs). reflexivity.
Qed.

Lemma filename_no_slash dt :
  valid_datetime dt = true -> has_slash (Spec.filename dt) = false.
Proof. intros Hv. apply no_slash_in_name, timestamp_chars, Hv. Qed.

Lemma recorder_filename_no_slash dt :
  valid_datetime dt = true -> has_slash (recorder_filename dt) = false.
Proof. intros Hv. apply no_slash_in_name, strftime_chars, Hv. Qed.

Lemma filename_inj dt1 dt2 :
  Spec.filename dt1 = Spec.filename dt2 -> Spec.timestamp dt1 = Spec.timestamp dt2.
Proof.
  unfold Spec.filename, Spec.timestamp, Spec.four_digits, Spec.two_digits.
  cbv [String.append]. intros Heq. injection Heq. intros. congruence.
Qed.

(** From the year 1000 on the recorder's names are the specification's. *)
Lemma recorder_filename_spec dt :
  valid_datetime dt = true -> 1000 <= year dt ->
  recorder_filename dt = Spec.filename dt.
Proof.
  intros Hv Hy. unfold recorder_filename, Spec.filename.
  rewrite (strftime_timestamp dt Hv Hy). reflexivity.
Qed.

Lemma recorder_destination_spec dt :
  valid_datetime dt = true -> 1000 <= year dt ->
  recorder_destination dt = Spec.destination dt.
Proof.
  intros Hv Hy. unfold recorder_destination.
  rewrite (recorder_filename_spec dt Hv Hy). reflexivity.
Qed.

Lemma strftime_ordinary dt :
  valid_datetime dt = true ->
  all_chars ordinary (strftime "%Y-%m-%d_%H-%M-%S" dt) = true.
Proof.
  intros Hv.
  apply (all_chars_impl Spec.is_timestamp_char); [ exact timestamp_char_ordinary | ].
  apply strftime_chars, Hv.
Qed.

(** The line the recorder builds at time [dt], as the shell parses it. *)
Lemma command_of_recorder_line dt :
  valid_datetime dt = true ->
  command_of (ffmpeg_command (strftime "%Y-%m-%d_%H-%M-%S" dt))
  = Some (mkCommand (recorder_argv (recorder_destination dt)) recorder_redirections).
Proof.
  intros Hv.
  rewrite (command_of_ffmpeg_command _ (strftime_ordinary dt Hv)). reflexivity.
Qed.

(** What a POSIX shell does with the recorder's line, and what it starts. *)
Lemma run_recorder_line path dt w :
  valid_datetime dt = true ->
  ShExec.run path (ffmpeg_command (strftime "%Y-%m-%d_%H-%M-%S" dt)) w =
  match ShExec.redirect recorder_redirections (w_files w) with
  | (false, fs) => (Z.shiftl 2 8, fs, [])
  | (true, fs) =>
      match path "ffmpeg" with
      | None => (Z.shiftl 127 8, fs, [])
      | Some prog =>
          let '(status, fs') :=
            prog (recorder_argv (recorder_destination dt)) (set_files fs w) in
          (Z.shiftl status 8, fs', [recorder_argv (recorder_destination dt)])
      end
  end.
Proof.
  intros Hv. unfold ShExec.run.
  rewrite (command_of_recorder_line _ Hv). reflexivity.
Qed.

(** [run] is [sh_c] with the record of the programs started. *)
Lemma run_sh_c path line w : fst (ShExec.run path line w) = ShExec.sh_c path line w.
Proof.
  unfold ShExec.run, ShExec.sh_c.
  destruct (command_of line) as [c | ]; [ | reflexivity ].
  destruct (ShExec.redirect (redirections c) (w_files w)) as [[] fs]; [ | reflexivity ].
  destruct (argv c) as [ | name args ]; [ reflexivity | ].
  destruct (path name) as [prog | ]; [ | reflexivity ].
  destruct (prog (name :: args) (set_files fs w)). reflexivity.
Qed.

Lemma sh_c_recorder_line path dt w :
  valid_datetime dt = true ->
  ShExec.sh_c path (ffmpeg_command (strftime "%Y-%m-%d_%H-%M-%S" dt)) w =
  match ShExec.redirect recorder_redirections (w_files w) with
  | (false, fs) => (Z.shiftl 2 8, fs)
  | (true, fs) =>
      match path "ffmpeg" with
      | None => (Z.shiftl 127 8, fs)
      | Some prog =>
          let '(status, fs') :=
            prog (recorder_argv (recorder_destination dt)) (set_files fs w) in
          (Z.shiftl status 8, fs')
      end
  end.
Proof.
  intros Hv. unfold ShExec.sh_c.
  rewrite (command_of_recorder_line _ Hv). reflexivity.
Qed.

Lemma redirect_recorder_files (fs : gset string) :
  snd (ShExec.redirect recorder_redirections fs) = fs
  \/ snd (ShExec.redirect recorder_redirections fs)
     = {[ ":554/h264Preview_01_main" ]} ∪ fs.
Proof.
  unfold recorder_redirections. cbn [ShExec.redirect].
  destruct (bool_decide ("camera_ip" ∈ fs)); [ | left; reflexivity ].
  destruct (ShExec.directory_exists ":554/h264Preview_01_main" fs);
    [ right | left ]; reflexivity.
Qed.

Lemma clip_path_recorder sh w :
  valid_datetime (w_time w) = true ->
  clip_path sh w = Some (recorder_destination (w_time w)).
Proof.
  intros Hv. unfold clip_path, destination_of.
  rewrite command_lines_record_clip. cbn [last mbind option_bind].
  rewrite (command_of_recorder_line _ Hv). reflexivity.
Qed.

Lemma clip_name_recorder sh w :
  valid_datetime (w_time w) = true ->
  clip_name sh w = Some (recorder_filename (w_time w)).
Proof.
  intros Hv. unfold clip_name. rewrite (clip_path_recorder sh w Hv).
  cbn [fmap option_fmap option_map]. f_equal.
  unfold recorder_destination.
  apply (basename_app "/var/www/html/clips"), recorder_filename_no_slash, Hv.
Qed.

Lemma clip_path_record_clip sh w :
  valid_datetime (w_time w) = true -> 1000 <= year (w_time w) ->
  clip_path sh w = Some (Spec.destination (w_time w)).
Proof.
  intros Hv Hy. rewrite (clip_path_recorder sh w Hv).
  rewrite (recorder_destination_spec _ Hv Hy). reflexivity.
Qed.

Lemma clip_name_record_clip sh w :
  valid_datetime (w_time w) = true -> 1000 <= year (w_time w) ->
  clip_name sh w = Some (Spec.filename (w_time w)).
Proof.
  intros Hv Hy. rewrite (clip_name_recorder sh w Hv).
  rewrite (recorder_filename_spec _ Hv Hy). reflexivity.
Qed.

End DestinationFacts.

(** ** The properties of the specification *)

Section Claims.

Import Sh Path Observe Samples.

(** C1, as the specification states it, at a concrete run: were the result
    to reflect the exit status, a run whose sub-shell exits with status 0
    would give the destination path and a run whose sub-shell exits with
    a non-zero status would give something else.  The two runs give the
    same value, and it is not the path. *)
Lemma exit_status_not_reflected :
  fst (exec (exits_with 0) record_clip (world_at morning ∅))
  = fst (exec (exits_with 256) record_clip (world_at morning ∅))
  /\ fst (exec (exits_with 0) record_clip (world_at morning ∅))
     <> PyStr (Spec.destination morning).
Proof. split; [ reflexivity | discriminate ]. Qed.

(** C1 (amended): every call of [record_clip] returns [None], whatever
    wait status the sub-shell reports; the status goes to the log of the
    run and nowhere else, and the script that makes the call runs to its
    end whatever the status is. *)
Theorem record_clip_returns_none (sh : subprocess) (w : World) :
  fst (exec sh record_clip w) = PyNone
  /\ (exists line status,
        events_during sh record_clip w = [EvNow (w_time w); EvSystem line status]
        /\ status = fst (sh line (log (EvNow (w_time w)) w)))
  /\ (forall name, is_Some (exec_module sh name record_clip_py w)).
Proof.
  split; [ | split ].
  - rewrite exec_record_clip. reflexivity.
  - eexists _, _. split; [ apply events_during_record_clip | reflexivity ].
  - intros name. cbn. rewrite lookup_insert_eq. eexists. reflexivity.
Qed.

(** C2: for every wall-clock time read at the call, from the year 1000
    on, the generated file name is the timestamp [YYYY-MM-DD_HH-MM-SS] of
    that time followed by [.mp4], and the destination is that name under
    [/var/www/html/clips]. *)
Theorem clip_name_format (sh : subprocess) (w : World) :
  valid_datetime (w_time w) = true ->
  1000 <= year (w_time w) ->
  strftime "%Y-%m-%d_%H-%M-%S" (w_time w) = Spec.timestamp (w_time w)
  /\ clip_name sh w = Some (Spec.timestamp (w_time w) +:+ ".mp4")
  /\ Spec.matches "YYYY-MM-DD_HH-MM-SS.mp4" (Spec.timestamp (w_time w) +:+ ".mp4") = true
  /\ clip_path sh w
     = Some (Spec.output_dir +:+ "/" +:+ Spec.timestamp (w_time w) +:+ ".mp4")
  /\ clip_path sh w ≫= dirname = Some "/var/www/html/clips".
Proof.
  intros Hv Hy. repeat split.
  - apply strftime_timestamp; assumption.
  - apply clip_name_record_clip; assumption.
  - apply filename_matches, Hv.
  - apply clip_path_record_clip; assumption.
  - rewrite (clip_path_record_clip sh w Hv Hy). cbn [mbind option_bind].
    apply (dirname_app Spec.output_dir), filename_no_slash, Hv.
Qed.

Lemma clip_name_format_witness :
  valid_datetime morning = true
  /\ 1000 <= year morning
  /\ clip_name (exits_with 0) (world_at morning ∅) = Some "2024-03-09_07-05-00.mp4"
  /\ clip_path (exits_with 0) (world_at morning ∅)
     = Some "/var/www/html/clips/2024-03-09_07-05-00.mp4".
Proof.
  assert (Hy : 1000 <= year morning) by (vm_compute; discriminate).
  split; [ reflexivity | ]. split; [ exact Hy | ].
  destruct (clip_name_format (exits_with 0) (world_at morning ∅) eq_refl Hy)
    as (_ & Hname & _ & Hpath & _).
  split; [ exact Hname | exact Hpath ].
Defined.

(** Below the year 1000 the C library prints the year as it is, so the
    name has fewer characters than the picture. *)
Example clip_name_year_999 :
  clip_name (exits_with 0) (world_at (mkDatetime 999 12 31 23 59 59 0) ∅)
  = Some "999-12-31_23-59-59.mp4".
Proof. reflexivity. Qed.

(** What a call hands to [os.system]: one line, which is one simple
    command whose name is [ffmpeg], whose [-t] argument is the configured
    duration 30 and whose last argument is the destination. *)
Lemma one_ffmpeg_line_per_call (sh : subprocess) (w : World) :
  valid_datetime (w_time w) = true ->
  exists line c,
    command_lines sh w = [line]
    /\ command_of line = Some c
    /\ head (argv c) = Some "ffmpeg"
    /\ option_value "-t" (argv c) = Some (decimal Spec.duration)
    /\ last (argv c) = Some (recorder_destination (w_time w)).
Proof.
  intros Hv. eexists _, _. split; [ apply command_lines_record_clip | ].
  split; [ apply command_of_recorder_line, Hv | ].
  repeat split.
Qed.

(** When the shell starts the capture tool: with [ffmpeg] on the path, it
    is started once, with the duration 30 and the destination, if both
    redirections of the line succeed, and not at all otherwise. *)
Lemma capture_tool_started_when (path : string -> option ShExec.program)
    (dt : datetime) (w : World) :
  valid_datetime dt = true ->
  is_Some (path "ffmpeg") ->
  ShExec.started path (ffmpeg_command (strftime "%Y-%m-%d_%H-%M-%S" dt)) w
  = if fst (ShExec.redirect recorder_redirections (w_files w))
    then [recorder_argv (recorder_destination dt)]
    else [].
Proof.
  intros Hv [prog Hprog]. unfold ShExec.started.
  rewrite (run_recorder_line path dt w Hv).
  destruct (ShExec.redirect recorder_redirections (w_files w)) as [[] fs];
    [ | reflexivity ].
  rewrite Hprog. destruct (prog _ _). reflexivity.
Qed.

(** C3 asks for the capture tool to be run exactly once by every call.
    The recorder run by a POSIX shell with [ffmpeg] installed, in a working
    directory that has the clip directory and no file [camera_ip]: the call
    hands its one line to the shell, the shell stops at the redirection
    [<camera_ip], starts no program at all and reports status 2. *)
Theorem capture_tool_not_started :
  let w := world_at morning {[ "/var/www/html/clips" ]} in
  let line := ffmpeg_command "2024-03-09_07-05-00" in
  command_lines (ShExec.sh_c ShExec.path_with_ffmpeg) w = [line]
  /\ ShExec.started ShExec.path_with_ffmpeg line (log (EvNow morning) w) = []
  /\ events_during (ShExec.sh_c ShExec.path_with_ffmpeg) record_clip w
     = [EvNow morning; EvSystem line (Z.shiftl 2 8)]
  /\ w_files (snd (exec (ShExec.sh_c ShExec.path_with_ffmpeg) record_clip w))
     = w_files w.
Proof.
  cbv zeta. split; [ reflexivity | ]. split; [ vm_compute; reflexivity | ].
  split.
  - rewrite events_during_record_clip. vm_compute. reflexivity.
  - match goal with
    | |- ?P => apply (@bool_decide_eq_true_1 P _); vm_compute; reflexivity
    end.
Qed.

(** C4: two calls at different timestamps, that is, at times that differ
    somewhere from the year down to the second, generate different file
    names and different destinations. *)
Theorem distinct_timestamps_distinct_names (sh1 sh2 : subprocess) (w1 w2 : World) :
  valid_datetime (w_time w1) = true ->
  valid_datetime (w_time w2) = true ->
  Spec.to_the_second (w_time w1) <> Spec.to_the_second (w_time w2) ->
  strftime "%Y-%m-%d_%H-%M-%S" (w_time w1) <> strftime "%Y-%m-%d_%H-%M-%S" (w_time w2)
  /\ is_Some (clip_name sh1 w1)
  /\ clip_name sh1 w1 <> clip_name sh2 w2
  /\ clip_path sh1 w1 <> clip_path sh2 w2.
Proof.
  intros Hv1 Hv2 Hne.
  rewrite (clip_name_recorder sh1 w1 Hv1), (clip_name_recorder sh2 w2 Hv2).
  rewrite (clip_path_recorder sh1 w1 Hv1), (clip_path_recorder sh2 w2 Hv2).
  split; [ intros Heq; apply Hne, strftime_inj; assumption | ].
  split; [ eexists; reflexivity | ].
  split; intros Heq; apply Hne; apply (inj Some) in Heq.
  - apply strftime_inj; [ exact Hv1 | exact Hv2 | ].
    unfold recorder_filename in Heq.
    apply append_inj_tail in Heq; [ apply Heq | reflexivity ].
  - apply strftime_inj; [ exact Hv1 | exact Hv2 | ].
    unfold recorder_destination, recorder_filename in Heq.
    apply append_cancel_l in Heq.
    apply append_inj_tail in Heq; [ apply Heq | reflexivity ].
Qed.

Lemma distinct_timestamps_distinct_names_witness :
  valid_datetime morning = true
  /\ valid_datetime next_second = true
  /\ Spec.to_the_second morning <> Spec.to_the_second next_second
  /\ clip_name (exits_with 0) (world_at morning ∅)
     <> clip_name (exits_with 0) (world_at next_second ∅).
Proof.
  assert (Hne : Spec.to_the_second morning <> Spec.to_the_second next_second)
    by discriminate.
  split; [ reflexivity | ]. split; [ reflexivity | ]. split; [ exact Hne | ].
  exact (proj1 (proj2 (proj2 (distinct_timestamps_distinct_names
                                (exits_with 0) (exits_with 0)
                                (world_at morning ∅) (world_at next_second ∅)
                                eq_refl eq_refl Hne)))).
Defined.

(** The limit the specification accepts: the timestamp stops at the
    second, so two calls within one second generate the same name. *)
Lemma same_second_same_name (sh1 sh2 : subprocess) (w1 w2 : World) :
  Spec.to_the_second (w_time w1) = Spec.to_the_second (w_time w2) ->
  command_lines sh1 w1 = command_lines sh2 w2.
Proof.
  intros Heq. rewrite !command_lines_record_clip.
  unfold Spec.to_the_second in Heq. injection Heq as Hy Hm Hd Hh Hmi Hs.
  cbn [strftime directive]. rewrite Hy, Hm, Hd, Hh, Hmi, Hs. reflexivity.
Qed.

Example same_second_collision :
  morning <> same_second
  /\ clip_name (exits_with 0) (world_at morning ∅)
     = clip_name (exits_with 0) (world_at same_second ∅).
Proof. split; [ discriminate | reflexivity ]. Qed.

(** The wrapper touches no file itself: the files a call leaves are the
    files its sub-shell leaves, whatever the sub-shell is. *)
Lemma wrapper_creates_no_file (sh : subprocess) (w : World) :
  w_files (snd (exec sh record_clip w))
  = snd (sh (ffmpeg_command (strftime "%Y-%m-%d_%H-%M-%S" (w_time w)))
            (log (EvNow (w_time w)) w)).
Proof. rewrite exec_record_clip. reflexivity. Qed.

(** C5: when the capture tool is not available, no output file appears.
    Run by a POSIX shell that finds no [ffmpeg], the call starts no program
    and creates no clip: the destination is not created, and the only file
    that can be new afterwards is the one the shell itself opens for the
    redirection [>:554/h264Preview_01_main].  The files the call leaves
    are the files the shell leaves: the wrapper creates none on this path. *)
Theorem no_clip_when_ffmpeg_unavailable
    (path : string -> option ShExec.program) (w : World) :
  valid_datetime (w_time w) = true ->
  path "ffmpeg" = None ->
  let line := ffmpeg_command (strftime "%Y-%m-%d_%H-%M-%S" (w_time w)) in
  let w' := snd (exec (ShExec.sh_c path) record_clip w) in
  command_lines (ShExec.sh_c path) w = [line]
  /\ ShExec.started path line (log (EvNow (w_time w)) w) = []
  /\ w_files w' = snd (ShExec.sh_c path line (log (EvNow (w_time w)) w))
  /\ (forall f, f ∈ w_files w' -> f ∈ w_files w \/ f = ":554/h264Preview_01_main")
  /\ (recorder_destination (w_time w) ∉ w_files w ->
      recorder_destination (w_time w) ∉ w_files w').
Proof.
  intros Hv Hpath line w'.
  assert (Hfiles : forall f, f ∈ w_files w' ->
                     f ∈ w_files w \/ f = ":554/h264Preview_01_main").
  { intros f. unfold w'. rewrite wrapper_creates_no_file.
    rewrite (sh_c_recorder_line _ _ _ Hv). cbn [w_files log]. rewrite Hpath.
    destruct (redirect_recorder_files (w_files w)) as [Hfs | Hfs];
      destruct (ShExec.redirect recorder_redirections (w_files w)) as [[] fs];
      cbn [snd] in Hfs |- *; subst fs; intros Hin; try (left; exact Hin).
    all: apply elem_of_union in Hin as [Hin | Hin]; [ right | left; exact Hin ].
    all: apply elem_of_singleton in Hin; exact Hin. }
  split; [ apply command_lines_record_clip | ].
  split.
  { unfold ShExec.started, line. rewrite (run_recorder_line _ _ _ Hv), Hpath.
    destruct (ShExec.redirect recorder_redirections _) as [[] fs]; reflexivity. }
  split; [ apply wrapper_creates_no_file | ].
  split; [ exact Hfiles | ].
  intros Hnew Hin. apply Hfiles in Hin as [Hin | Hin]; [ exact (Hnew Hin) | ].
  unfold recorder_destination in Hin. discriminate Hin.
Qed.

Lemma no_clip_when_ffmpeg_unavailable_witness :
  valid_datetime morning = true
  /\ ShExec.path_without_ffmpeg "ffmpeg" = None
  /\ ("/var/www/html/clips/2024-03-09_07-05-00.mp4"
       ∉ w_files (snd (exec (ShExec.sh_c ShExec.path_without_ffmpeg) record_clip
                         (world_at morning cluttered)))).
Proof.
  assert (Hnew : recorder_destination (w_time (world_at morning cluttered))
                 ∉ w_files (world_at morning cluttered)).
  { apply (bool_decide_eq_true_1 _). vm_compute. reflexivity. }
  split; [ reflexivity | ]. split; [ reflexivity | ].
  exact (proj2 (proj2 (proj2 (proj2
           (no_clip_when_ffmpeg_unavailable ShExec.path_without_ffmpeg
              (world_at morning cluttered) eq_refl eq_refl)))) Hnew).
Defined.

(** C6: every call of [record_clip] tells the capture tool to copy the
    video stream as it is encoded: the argument of [-vcodec] is [copy]. *)
Theorem codec_copy_requested (sh : subprocess) (w : World) :
  valid_datetime (w_time w) = true ->
  exists line c,
    command_lines sh w = [line]
    /\ command_of line = Some c
    /\ head (argv c) = Some "ffmpeg"
    /\ option_value "-vcodec" (argv c) = Some "copy".
Proof.
  intros Hv. eexists _, _. split; [ apply command_lines_record_clip | ].
  split; [ apply command_of_recorder_line, Hv | ].
  repeat split.
Qed.

Lemma codec_copy_requested_witness :
  valid_datetime next_second = true
  /\ exists line c,
       command_lines (exits_with 0) (world_at next_second ∅) = [line]
       /\ command_of line = Some c
       /\ head (argv c) = Some "ffmpeg"
       /\ option_value "-vcodec" (argv c) = Some "copy".
Proof.
  split; [ reflexivity | ].
  exact (codec_copy_requested (exits_with 0) (world_at next_second ∅) eq_refl).
Defined.

(** The frame of a call, for every sub-shell: it leaves the interpreter's
    globals, its environment variables and the clock alone, and all it adds
    to the log is one clock reading and one command. *)
Lemma record_clip_frame (sh : subprocess) (w : World) :
  let w' := snd (exec sh record_clip w) in
  w_globals w' = w_globals w
  /\ w_environ w' = w_environ w
  /\ w_time w' = w_time w
  /\ length (system_commands (events_during sh record_clip w)) = 1%nat.
Proof.
  cbv zeta. rewrite events_during_record_clip, exec_record_clip.
  repeat split.
Qed.

(** The line the recorder hands to the shell holds the placeholder
    [<camera_ip>] unquoted, which the shell reads as two redirections; the
    second one names a file to create. *)
Lemma recorder_line_redirections (dt : datetime) :
  valid_datetime dt = true ->
  redirections <$> command_of (ffmpeg_command (strftime "%Y-%m-%d_%H-%M-%S" dt))
  = Some [RedirectInput "camera_ip"; RedirectOutput ":554/h264Preview_01_main"].
Proof. intros Hv. rewrite (command_of_recorder_line dt Hv). reflexivity. Qed.

(** C7 asks for at most one new file, an [.mp4] in the clip directory, and
    no other file.  The recorder run where the working directory holds a
    file [camera_ip] and a directory [:554]: the call leaves two new files,
    the clip and [:554/h264Preview_01_main], and the second one is there
    whether or not the capture tool exists. *)
Theorem placeholder_redirection_creates_file :
  w_files (snd (exec (ShExec.sh_c ShExec.path_with_ffmpeg) record_clip
                  (world_at morning cluttered)))
  = {[ ":554/h264Preview_01_main";
       "/var/www/html/clips/2024-03-09_07-05-00.mp4" ]} ∪ cluttered
  /\ w_files (snd (exec (ShExec.sh_c ShExec.path_without_ffmpeg) record_clip
                     (world_at morning cluttered)))
     = {[ ":554/h264Preview_01_main" ]} ∪ cluttered
  /\ ":554/h264Preview_01_main" ∉ cluttered.
Proof.
  split; [ | split ];
    match goal with
    | |- ?P => apply (@bool_decide_eq_true_1 P _); vm_compute; reflexivity
    end.
Qed.

(** C8: the line is a function of the clock alone.  Two calls that read
    the same time hand the same line to the shell, whatever the files, the
    environment variables, the globals and the sub-shells are; and the line
    is the timestamp set between fixed text: the camera address, the
    duration 30, the codec option and the clip directory. *)
Theorem command_determined_by_clock (sh1 sh2 : subprocess) (w1 w2 : World) :
  w_time w1 = w_time w2 ->
  command_lines sh1 w1 = command_lines sh2 w2
  /\ command_lines sh1 w1
     = [ "ffmpeg -i " +:+ Spec.camera_uri +:+ " -t " +:+ decimal Spec.duration
         +:+ " -vcodec copy " +:+ Spec.output_dir +:+ "/"
         +:+ strftime "%Y-%m-%d_%H-%M-%S" (w_time w1) +:+ ".mp4" ].
Proof.
  intros Ht. rewrite !command_lines_record_clip, Ht.
  split; reflexivity.
Qed.

Lemma command_determined_by_clock_witness :
  w_time (world_at morning ∅) = w_time (world_at morning cluttered)
  /\ command_lines (exits_with 0) (world_at morning ∅)
     = command_lines (ShExec.sh_c ShExec.path_with_ffmpeg) (world_at morning cluttered).
Proof.
  split; [ reflexivity | ].
  exact (proj1 (command_determined_by_clock
                  (exits_with 0) (ShExec.sh_c ShExec.path_with_ffmpeg)
                  (world_at morning ∅) (world_at morning cluttered) eq_refl)).
Defined.

(** C9: the timestamp consists of digits, hyphens and underscores only;
    none of them is a shell metacharacter, so the line always has the same
    twelve tokens and the timestamp stays inside the last word. *)
Theorem timestamp_is_shell_safe (sh : subprocess) (w : World) :
  valid_datetime (w_time w) = true ->
  let now := strftime "%Y-%m-%d_%H-%M-%S" (w_time w) in
  all_chars Spec.is_timestamp_char now = true
  /\ all_chars (fun c => negb (is_meta c)) now = true
  /\ forall line, In line (command_lines sh w) ->
       tokens line = Some (recorder_tokens ("/var/www/html/clips/" +:+ now +:+ ".mp4")).
Proof.
  intros Hv now. split; [ | split ].
  - apply strftime_chars, Hv.
  - apply strftime_ordinary, Hv.
  - intros line Hin. rewrite command_lines_record_clip in Hin.
    destruct Hin as [<- | []].
    apply tokens_ffmpeg_command, strftime_ordinary, Hv.
Qed.

Lemma timestamp_is_shell_safe_witness :
  valid_datetime same_second = true
  /\ all_chars Spec.is_timestamp_char "2024-03-09_07-05-00" = true
  /\ all_chars (fun c => negb (is_meta c)) "2024-03-09_07-05-00" = true.
Proof.
  split; [ reflexivity | ].
  destruct (timestamp_is_shell_safe (exits_with 0) (world_at same_second ∅) eq_refl)
    as (Hchars & Hsafe & _).
  split; [ exact Hchars | exact Hsafe ].
Defined.

(** C10: loading the module, as a script or through an import, runs
    [record_clip] exactly once: whatever [__name__] is, the module body
    runs to its end, and what it adds to the log is one call of
    [record_clip] with its one clock reading and its one command. *)
Theorem module_load_records_once (sh : subprocess) (name : string) (w : World) :
  exists w',
    exec_module sh name record_clip_py w = Some w'
    /\ w' = snd (exec sh record_clip (log (EvCall "record_clip") (with_module_globals w)))
    /\ calls (drop (length (w_log w)) (w_log w')) = ["record_clip"]
    /\ system_commands (drop (length (w_log w)) (w_log w'))
       = [ffmpeg_command (strftime "%Y-%m-%d_%H-%M-%S" (w_time w))].
Proof.
  eexists. split; [ | split; [ reflexivity | ] ].
  - unfold record_clip_py.
    cbn [exec_module exec_stmt mbind option_bind].
    cbn [w_globals set_global]. rewrite lookup_insert_eq. reflexivity.
  - rewrite exec_record_clip.
    cbn [snd log set_files w_log w_files w_time with_module_globals set_global].
    rewrite <- !app_assoc. rewrite drop_app_length.
    split; reflexivity.
Qed.

End Claims.

(** ** Names sort as times do *)

Section OrderFacts.

Import Order.

Lemma comparison_eqb_eq c1 c2 : comparison_eqb c1 c2 = true -> c1 = c2.
Proof. destruct c1, c2; simpl; congruence. Qed.

Lemma compare_app (a a' b b' : string) :
  String.length a = String.length a' ->
  String.compare (a +:+ b) (a' +:+ b')
  = lexicographic (String.compare a a') (String.compare b b').
Proof.
  revert a'. induction a as [ | x a IH ]; intros [ | x' a' ] Hlen;
    try discriminate Hlen.
  - reflexivity.
  - change (String.compare (String x (a +:+ b)) (String x' (a' +:+ b'))
            = lexicographic (String.compare (String x a) (String x' a'))
                            (String.compare b b')).
    cbn [String.compare]. destruct (Ascii.compare x x'); try reflexivity.
    apply IH. injection Hlen as Hlen. exact Hlen.
Qed.

Lemma two_digits_compare a b :
  0 <= a <= 99 -> 0 <= b <= 99 ->
  String.compare (Spec.two_digits a) (Spec.two_digits b) = (a ?= b).
Proof.
  intros Ha Hb.
  pose (Q := fun x y =>
          comparison_eqb (String.compare (Spec.two_digits x) (Spec.two_digits y)) (x ?= y)).
  pose (P := fun x => forallb (fun k => Q x (Z.of_nat k)) (seq 0 (Z.to_nat 100))).
  assert (HP : P a = true).
  { apply (check_below P 100); [ vm_compute; reflexivity | lia ]. }
  apply comparison_eqb_eq.
  apply (check_below (Q a) 100); [ exact HP | lia ].
Qed.

Lemma four_digits_split a :
  0 <= a <= 9999 ->
  Spec.four_digits a = Spec.two_digits (a / 100) +:+ Spec.two_digits (a mod 100).
Proof.
  intros Ha. unfold Spec.four_digits, Spec.two_digits. cbv [String.append].
  replace (a / 100 / 10) with (a / 1000) by (Z.div_mod_to_equations; lia).
  replace (a mod 100 / 10) with (a / 10 mod 10) by (Z.div_mod_to_equations; lia).
  replace ((a mod 100) mod 10) with (a mod 10) by (Z.div_mod_to_equations; lia).
  reflexivity.
Qed.

Lemma compare_hundreds a b :
  0 <= a -> 0 <= b ->
  lexicographic (a / 100 ?= b / 100) (a mod 100 ?= b mod 100) = (a ?= b).
Proof.
  intros Ha Hb. unfold lexicographic.
  destruct (Z.compare_spec (a / 100) (b / 100)) as [Hq | Hq | Hq].
  - destruct (Z.compare_spec (a mod 100) (b mod 100));
      destruct (Z.compare_spec a b); try reflexivity;
      Z.div_mod_to_equations; lia.
  - symmetry. apply Z.compare_lt_iff. Z.div_mod_to_equations. lia.
  - symmetry. apply Z.compare_gt_iff. Z.div_mod_to_equations. lia.
Qed.

Lemma four_digits_compare a b :
  0 <= a <= 9999 -> 0 <= b <= 9999 ->
  String.compare (Spec.four_digits a) (Spec.four_digits b) = (a ?= b).
Proof.
  intros Ha Hb.
  rewrite (four_digits_split a Ha), (four_digits_split b Hb).
  rewrite compare_app by reflexivity.
  rewrite !two_digits_compare by (Z.div_mod_to_equations; lia).
  apply compare_hundreds; lia.
Qed.

Lemma compare_same_prefix (p a b : string) :
  String.compare (p +:+ a) (p +:+ b) = String.compare a b.
Proof.
  induction p as [ | c p IH ]; [ reflexivity | ].
  change (String.compare (String c (p +:+ a)) (String c (p +:+ b)) = String.compare a b).
  cbn [String.compare]. unfold Ascii.compare. rewrite N.compare_refl. exact IH.
Qed.

(** Character order on timestamps is time order. *)
Lemma timestamp_compare dt1 dt2 :
  valid_datetime dt1 = true -> valid_datetime dt2 = true ->
  String.compare (Spec.timestamp dt1) (Spec.timestamp dt2) = time_compare dt1 dt2.
Proof.
  intros Hv1 Hv2.
  apply valid_datetime_bounds in Hv1, Hv2.
  destruct Hv1 as (Hy1 & Hm1 & Hd1 & Hh1 & Hmi1 & Hs1).
  destruct Hv2 as (Hy2 & Hm2 & Hd2 & Hh2 & Hmi2 & Hs2).
  unfold Spec.timestamp, time_compare.
  rewrite compare_app by reflexivity.
  rewrite four_digits_compare by lia. f_equal.
  do 4 (rewrite compare_same_prefix, compare_app by reflexivity;
        rewrite two_digits_compare by lia; f_equal).
  rewrite compare_same_prefix.
  apply two_digits_compare; lia.
Qed.

End OrderFacts.

(** ** Further properties of the recorder *)

Section Further.

Import Sh Path Observe Order Samples.

(** X1: clip names sort as the clock runs.  For two clock readings from
    the year 1000 on, the name order of the two clips (character by
    character, as a directory listing sorts) is the order of the two times
    down to the second, and so is the order of the two destinations. *)
Theorem clip_names_sort_by_time (sh1 sh2 : subprocess) (w1 w2 : World) :
  valid_datetime (w_time w1) = true ->
  valid_datetime (w_time w2) = true ->
  1000 <= year (w_time w1) ->
  1000 <= year (w_time w2) ->
  exists n1 n2 p1 p2,
    clip_name sh1 w1 = Some n1 /\ clip_name sh2 w2 = Some n2
    /\ clip_path sh1 w1 = Some p1 /\ clip_path sh2 w2 = Some p2
    /\ name_compare n1 n2 = time_compare (w_time w1) (w_time w2)
    /\ name_compare p1 p2 = time_compare (w_time w1) (w_time w2).
Proof.
  intros Hv1 Hv2 Hy1 Hy2.
  exists (Spec.filename (w_time w1)), (Spec.filename (w_time w2)),
         (Spec.destination (w_time w1)), (Spec.destination (w_time w2)).
  split; [ apply clip_name_record_clip; assumption | ].
  split; [ apply clip_name_record_clip; assumption | ].
  split; [ apply clip_path_record_clip; assumption | ].
  split; [ apply clip_path_record_clip; assumption | ].
  assert (Hname : name_compare (Spec.filename (w_time w1)) (Spec.filename (w_time w2))
                  = time_compare (w_time w1) (w_time w2)).
  { unfold name_compare, Spec.filename.
    rewrite compare_app.
    - rewrite (timestamp_compare _ _ Hv1 Hv2).
      destruct (time_compare (w_time w1) (w_time w2)); reflexivity.
    - reflexivity. }
  split; [ exact Hname | ].
  unfold name_compare, Spec.destination.
  rewrite !compare_same_prefix. exact Hname.
Qed.

Lemma clip_names_sort_by_time_witness :
  valid_datetime morning = true
  /\ valid_datetime next_second = true
  /\ 1000 <= year morning
  /\ 1000 <= year next_second
  /\ exists n1 n2,
       clip_name (exits_with 0) (world_at morning ∅) = Some n1
       /\ clip_name (exits_with 0) (world_at next_second ∅) = Some n2
       /\ name_compare n1 n2 = Lt.
Proof.
  assert (Hy1 : 1000 <= year morning) by (vm_compute; discriminate).
  assert (Hy2 : 1000 <= year next_second) by (vm_compute; discriminate).
  split; [ reflexivity | ]. split; [ reflexivity | ].
  split; [ exact Hy1 | ]. split; [ exact Hy2 | ].
  destruct (clip_names_sort_by_time (exits_with 0) (exits_with 0)
              (world_at morning ∅) (world_at next_second ∅) eq_refl eq_refl Hy1 Hy2)
    as (n1 & n2 & _ & _ & H1 & H2 & _ & _ & Hcmp & _).
  exists n1, n2. split; [ exact H1 | ]. split; [ exact H2 | exact Hcmp ].
Defined.

(** Below the year 1000 the order breaks: the clip of the last second of
    999 sorts after the clip of the first second of 1000. *)
Example clip_names_order_year_999 :
  name_compare (recorder_filename (mkDatetime 999 12 31 23 59 59 0))
               (recorder_filename (mkDatetime 1000 1 1 0 0 0 0)) = Gt
  /\ time_compare (mkDatetime 999 12 31 23 59 59 0) (mkDatetime 1000 1 1 0 0 0 0) = Lt.
Proof. split; reflexivity. Qed.

(** X2: the recorder as it is written needs a file [camera_ip].  Run by a
    POSIX shell in a working directory without a file of that name, the
    line stops at its first redirection: whatever program [ffmpeg] is, it
    is not started, no file is created or changed, the shell reports a
    non-zero status, and the call returns [None] all the same. *)
Theorem no_capture_without_camera_ip_file
    (path : string -> option ShExec.program) (w : World) :
  valid_datetime (w_time w) = true ->
  "camera_ip" ∉ w_files w ->
  w_files (snd (exec (ShExec.sh_c path) record_clip w)) = w_files w
  /\ fst (exec (ShExec.sh_c path) record_clip w) = PyNone
  /\ exists line status,
       events_during (ShExec.sh_c path) record_clip w
       = [EvNow (w_time w); EvSystem line status]
       /\ status <> 0.
Proof.
  intros Hv Hmissing.
  assert (Hsh : forall w1, w_files w1 = w_files w ->
                  ShExec.sh_c path
                    (ffmpeg_command (strftime "%Y-%m-%d_%H-%M-%S" (w_time w))) w1
                  = (Z.shiftl 2 8, w_files w)).
  { intros w1 Hfs. rewrite (sh_c_recorder_line _ _ _ Hv).
    unfold recorder_redirections. cbn [ShExec.redirect]. rewrite Hfs.
    rewrite (bool_decide_eq_false_2 _ Hmissing). reflexivity. }
  rewrite events_during_record_clip, exec_record_clip. cbv zeta.
  rewrite (Hsh (log (EvNow (w_time w)) w) eq_refl). cbn [fst snd log set_files w_files].
  split; [ reflexivity | ]. split; [ reflexivity | ].
  eexists _, _. split; [ reflexivity | discriminate ].
Qed.

Lemma no_capture_without_camera_ip_file_witness :
  valid_datetime morning = true
  /\ ("camera_ip" ∉ w_files (world_at morning {[ "/var/www/html/clips" ]}))
  /\ w_files (snd (exec (ShExec.sh_c ShExec.path_with_ffmpeg) record_clip
                     (world_at morning {[ "/var/www/html/clips" ]})))
     = {[ "/var/www/html/clips" ]}.
Proof.
  assert (Hmissing : "camera_ip" ∉ w_files (world_at morning {[ "/var/www/html/clips" ]})).
  { apply (bool_decide_eq_true_1 _). vm_compute. reflexivity. }
  split; [ reflexivity | ]. split; [ exact Hmissing | ].
  exact (proj1 (no_capture_without_camera_ip_file ShExec.path_with_ffmpeg
                  (world_at morning {[ "/var/www/html/clips" ]}) eq_refl Hmissing)).
Defined.

(** X3: the timestamp drops everything below the second.  Two calls whose
    clock readings agree from the year down to the second hand the same
    line to the shell and therefore name the same destination, whatever the
    microseconds are: the later recording goes to the file of the earlier
    one. *)
Theorem same_second_same_destination (sh1 sh2 : subprocess) (w1 w2 : World) :
  Spec.to_the_second (w_time w1) = Spec.to_the_second (w_time w2) ->
  command_lines sh1 w1 = command_lines sh2 w2
  /\ clip_path sh1 w1 = clip_path sh2 w2
  /\ clip_name sh1 w1 = clip_name sh2 w2.
Proof.
  intros Heq.
  pose proof (same_second_same_name sh1 sh2 w1 w2 Heq) as Hlines.
  unfold clip_name, clip_path. rewrite Hlines. repeat split.
Qed.

Lemma same_second_same_destination_witness :
  Spec.to_the_second morning = Spec.to_the_second same_second
  /\ microsecond morning <> microsecond same_second
  /\ clip_path (exits_with 0) (world_at morning ∅)
     = clip_path (exits_with 0) (world_at same_second cluttered).
Proof.
  split; [ reflexivity | ]. split; [ discriminate | ].
  exact (proj1 (proj2 (same_second_same_destination (exits_with 0) (exits_with 0)
                         (world_at morning ∅) (world_at same_second cluttered)
                         eq_refl))).
Defined.

(** X4: the camera address does not reach the capture tool.  At every
    time the argument vector has the same eight entries; the input given to
    [-i] is [rtsp://], the address is not among the arguments, and the
    tool's standard input and output are redirected to [camera_ip] and
    [:554/h264Preview_01_main]. *)
Theorem camera_uri_not_passed (sh : subprocess) (w : World) :
  valid_datetime (w_time w) = true ->
  exists line c,
    command_lines sh w = [line]
    /\ command_of line = Some c
    /\ length (argv c) = 8%nat
    /\ option_value "-i" (argv c) = Some "rtsp://"
    /\ (Spec.camera_uri ∉ argv c)
    /\ redirections c
       = [RedirectInput "camera_ip"; RedirectOutput ":554/h264Preview_01_main"].
Proof.
  intros Hv. eexists _, _. split; [ apply command_lines_record_clip | ].
  split; [ apply command_of_recorder_line, Hv | ].
  cbn [argv redirections]. unfold recorder_argv.
  split; [ reflexivity | ]. split; [ reflexivity | ]. split; [ | reflexivity ].
  rewrite !not_elem_of_cons. unfold recorder_destination.
  repeat split; try discriminate. apply not_elem_of_nil.
Qed.

Lemma camera_uri_not_passed_witness :
  valid_datetime morning = true
  /\ exists line c,
       command_lines (exits_with 0) (world_at morning ∅) = [line]
       /\ command_of line = Some c
       /\ option_value "-i" (argv c) = Some "rtsp://".
Proof.
  split; [ reflexivity | ].
  destruct (camera_uri_not_passed (exits_with 0) (world_at morning ∅) eq_refl)
    as (line & c & Hline & Hc & _ & Hi & _).
  exists line, c. split; [ exact Hline | ]. split; [ exact Hc | exact Hi ].
Defined.

End Further.
